(** * Ethereum economic model: the shared Eth1/Eth2 policy and state-update functions

    A shallow embedding of [model/parts/ethereum.py]: the two policy
    functions [policy_network_issuance] and
    [policy_eip1559_transaction_pricing], and the two state-update functions
    [update_eth_price] and [update_eth_supply].

    The Python code works on dictionaries with string keys whose values are
    numbers, [Stage] members and callables (the stochastic processes).  Every
    dictionary access, arithmetic operation, call and assertion can raise, so
    the functions are written in a small monad that threads the log of process
    calls and stops at the first exception. *)

From Stdlib Require Import ZArith QArith Qcanon Qcabs.
From Stdlib Require Import PrimFloat SpecFloat FloatOps.
From stdpp Require Import base strings gmap.

#[local] Unset Default Proof Using.

(** ** Numbers

    The arithmetic of the source is duck-typed: it only uses [+], [-], [*],
    [/], [<=] and the literal [0] on whatever numbers the engine supplies.
    The embedding is therefore parametric in the number type. *)

Class Number (F : Type) := {
  of_int : Z -> F;
  nadd : F -> F -> F;
  nsub : F -> F -> F;
  nmul : F -> F -> F;
  ndiv : F -> F -> F;
  nabs : F -> F;
  neqb : F -> F -> bool;
  nleb : F -> F -> bool;
  nltb : F -> F -> bool
}.

(** The laws of exact arithmetic that some of the properties below rely on. *)
Class NumberLaws (F : Type) `{Number F} : Prop := {
  nadd_assoc : forall x y z : F, nadd x (nadd y z) = nadd (nadd x y) z;
  nadd_0_l : forall x : F, nadd (of_int 0) x = x;
  nadd_0_r : forall x : F, nadd x (of_int 0) = x;
  nmul_0_l : forall x : F, nmul (of_int 0) x = of_int 0;
  nleb_refl : forall x : F, nleb x x = true;
  nleb_nltb : forall x y : F, nleb x y = negb (nltb y x);
  nltb_succ : forall x : F, nltb x (nadd x (of_int 1)) = true
}.

(** ** Stages *)

(** Modelled from the spec: the [Stage] enumeration of [model.types], which is
    not among the sources.  The spec lists its members, in order, as
    PROOF_OF_WORK, BEACON_CHAIN, EIP1559 and PROOF_OF_STAKE. *)
Inductive Stage : Type :=
  | PROOF_OF_WORK
  | BEACON_CHAIN
  | EIP1559
  | PROOF_OF_STAKE.

Definition Stage_members : list Stage :=
  [PROOF_OF_WORK; BEACON_CHAIN; EIP1559; PROOF_OF_STAKE].

Definition Stage_eqb (a b : Stage) : bool :=
  match a, b with
  | PROOF_OF_WORK, PROOF_OF_WORK
  | BEACON_CHAIN, BEACON_CHAIN
  | EIP1559, EIP1559
  | PROOF_OF_STAKE, PROOF_OF_STAKE => true
  | _, _ => false
  end.

(** Python's [x in [a, b, ...]] on enumeration members. *)
Definition stage_in (s : Stage) (l : list Stage) : bool :=
  existsb (Stage_eqb s) l.

(** ** Constants

    [model.constants] is not among the sources either: its three constants
    used here, and the values of the [Stage] members, are parameters. *)
Class Constants (F : Type) := {
  gwei : F;
  epochs_per_day : F;
  slots_per_epoch : F;
  stage_value : Stage -> F
}.

(** ** Values, exceptions and the monad *)

Inductive exn : Type :=
  | KeyError (key : string)
  | TypeError
  | ValueError
  | ZeroDivisionError
  | AssertionError (msg : string).

Inductive outcome (A : Type) : Type :=
  | Ok (a : A)
  | Raise (e : exn).
Arguments Ok {A} a.
Arguments Raise {A} e.

Section Model.

Context {F : Type} `{Number F} `{Constants F}.

(** A Python value as the four functions meet it: a number, a [Stage] member
    or a stochastic process, a function of [(run, time)] returning a sample. *)
Inductive value : Type :=
  | VNum (x : F)
  | VStage (s : Stage)
  | VProc (f : F -> F -> F).

(** One call of a stochastic process: the parameter key it was read from and
    the two arguments it was applied to. *)
Record call : Type := Call {
  callee : string;
  call_run : F;
  call_time : F
}.

(** A computation takes the calls made so far and returns its outcome with
    the calls made up to its end or up to the exception. *)
Definition M (A : Type) : Type := list call -> outcome A * list call.

Definition ret {A} (a : A) : M A := fun log => (Ok a, log).

Definition raise {A} (e : exn) : M A := fun log => (Raise e, log).

Definition bind {A B} (m : M A) (k : A -> M B) : M B :=
  fun log =>
    match m log with
    | (Ok a, log') => k a log'
    | (Raise e, log') => (Raise e, log')
    end.

Definition run {A} (m : M A) : outcome A * list call := m [].

End Model.

Arguments value F : clear implicits.
Arguments call F : clear implicits.
Arguments M F A : clear implicits.

Declare Scope py_scope.
Delimit Scope py_scope with py.
Notation "x <- m ;; k" := (bind m (fun x => k))
  (at level 100, m at next level, right associativity) : py_scope.
Open Scope py_scope.

(** A Python dictionary with string keys. *)
Abbreviation dict F := (gmap string (value F)).

Section Operations.

Context {F : Type} `{Number F} `{Constants F}.

(** [d[k]] *)
Definition getitem (d : dict F) (k : string) : M F (value F) :=
  match d !! k with
  | Some v => ret v
  | None => raise (KeyError k)
  end.

(** The binary arithmetic operators: defined on two numbers, [TypeError]
    on a [Stage] member or a process. *)
Definition arith (op : F -> F -> F) (a b : value F) : M F (value F) :=
  match a, b with
  | VNum x, VNum y => ret (VNum (op x y))
  | _, _ => raise TypeError
  end.

Definition py_add := arith nadd.
Definition py_sub := arith nsub.
Definition py_mul := arith nmul.

(** [a / b]: true division, [ZeroDivisionError] when [b == 0]. *)
Definition py_truediv (a b : value F) : M F (value F) :=
  match a, b with
  | VNum x, VNum y =>
      if neqb y (of_int 0) then raise ZeroDivisionError
      else ret (VNum (ndiv x y))
  | _, _ => raise TypeError
  end.

(** [a <= b] *)
Definition py_le (a b : value F) : M F bool :=
  match a, b with
  | VNum x, VNum y => ret (nleb x y)
  | _, _ => raise TypeError
  end.

(** [assert c, msg] *)
Definition py_assert (c : bool) (msg : string) : M F unit :=
  if c then ret tt else raise (AssertionError msg).

(** [Stage(v)]: a member is returned as it is, a number is looked up among
    the members' values, anything else is not a valid [Stage]. *)
Definition Stage_of_value (v : value F) : option Stage :=
  match v with
  | VStage s => Some s
  | VNum x => find (fun s => neqb x (stage_value s)) Stage_members
  | VProc _ => None
  end.

Definition Stage_call (v : value F) : M F Stage :=
  match Stage_of_value v with
  | Some s => ret s
  | None => raise ValueError
  end.

(** [f(run, t)] for the process [f] read from parameter [name]: the call is
    logged.  A process takes two numbers. *)
Definition call_process (name : string) (f run t : value F) : M F (value F) :=
  match f, run, t with
  | VProc g, VNum r, VNum x =>
      fun log => (Ok (VNum (g r x)), log ++ [Call name r x])
  | _, _, _ => raise TypeError
  end.

Definition zero : value F := VNum (of_int 0).

(** *** [policy_network_issuance] *)

Definition policy_network_issuance
    (params : dict F) (substep : Z) (state_history : list (list (dict F)))
    (previous_state : dict F) : M F (dict F) :=
  (* Parameters *)
  dt <- getitem params "dt" ;;
  daily_pow_issuance <- getitem params "daily_pow_issuance" ;;
  (* State Variables *)
  stage <- getitem previous_state "stage" ;;
  amount_slashed <- getitem previous_state "amount_slashed" ;;
  total_basefee <- getitem previous_state "total_basefee" ;;
  total_tips_to_validators <- getitem previous_state "total_tips_to_validators" ;;
  total_online_validator_rewards <-
    getitem previous_state "total_online_validator_rewards" ;;
  (* Calculate network issuance in ETH *)
  a <- py_sub total_online_validator_rewards total_tips_to_validators ;;
  b <- py_sub a amount_slashed ;;
  c <- py_sub b total_basefee ;;
  network_issuance <- py_truediv c (VNum gwei) ;;
  (* Calculate Proof of Work issuance *)
  st <- Stage_call stage ;;
  pow_issuance <-
    (if stage_in st [BEACON_CHAIN; EIP1559]
     then py_truediv daily_pow_issuance (VNum epochs_per_day)
     else ret zero) ;;
  d <- py_mul pow_issuance dt ;;
  network_issuance <- py_add network_issuance d ;;
  ret (<["network_issuance" := network_issuance]>
       (<["pow_issuance" := pow_issuance]> ∅)).

(** *** [policy_eip1559_transaction_pricing] *)

Definition policy_eip1559_transaction_pricing
    (params : dict F) (substep : Z) (state_history : list (list (dict F)))
    (previous_state : dict F) : M F (dict F) :=
  stage_v <- getitem previous_state "stage" ;;
  stage <- Stage_call stage_v ;;
  if negb (stage_in stage [EIP1559; PROOF_OF_STAKE]) then
    ret (<["basefee" := zero]>
         (<["total_basefee" := zero]>
          (<["total_tips_to_miners" := zero]>
           (<["total_tips_to_validators" := zero]> ∅))))
  else
    (* Parameters *)
    dt <- getitem params "dt" ;;
    gas_target <- getitem params "gas_target" ;;
    ELASTICITY_MULTIPLIER <- getitem params "ELASTICITY_MULTIPLIER" ;;
    BASE_FEE_MAX_CHANGE_DENOMINATOR <-
      getitem params "BASE_FEE_MAX_CHANGE_DENOMINATOR" ;;
    eip1559_basefee_process <- getitem params "eip1559_basefee_process" ;;
    eip1559_tip_process <- getitem params "eip1559_tip_process" ;;
    daily_transactions_process <- getitem params "daily_transactions_process" ;;
    transaction_average_gas <- getitem params "transaction_average_gas" ;;
    (* State Variables *)
    run_id <- getitem previous_state "run" ;;
    timestep <- getitem previous_state "timestep" ;;
    previous_basefee <- getitem previous_state "basefee" ;;
    (* Samples for the current run and timestep *)
    t <- py_mul timestep dt ;;
    basefee <- call_process "eip1559_basefee_process"
                 eip1559_basefee_process run_id t ;;
    (* the assertion on the basefee change is commented out in the source *)
    t <- py_mul timestep dt ;;
    avg_tip_amount <- call_process "eip1559_tip_process"
                        eip1559_tip_process run_id t ;;
    t <- py_mul timestep dt ;;
    transactions_per_day <- call_process "daily_transactions_process"
                              daily_transactions_process run_id t ;;
    transactions_per_epoch <-
      py_truediv transactions_per_day (VNum epochs_per_day) ;;
    (* Calculate total basefee and tips to validators *)
    gas_used <- py_mul transactions_per_epoch transaction_average_gas ;;
    total_basefee <- py_mul gas_used basefee ;;
    total_tips <- py_mul gas_used avg_tip_amount ;;
    let '(total_tips_to_miners, total_tips_to_validators) :=
      if stage_in stage [PROOF_OF_STAKE]
      then (zero, total_tips)
      else (total_tips, zero) in
    (* Check if the block used too much gas *)
    g <- py_mul gas_target ELASTICITY_MULTIPLIER ;;
    limit <- py_mul g (VNum slots_per_epoch) ;;
    within <- py_le gas_used limit ;;
    _ <- py_assert within "invalid block: too much gas used" ;;
    total_basefee_dt <- py_mul total_basefee dt ;;
    total_tips_to_miners_dt <- py_mul total_tips_to_miners dt ;;
    total_tips_to_validators_dt <- py_mul total_tips_to_validators dt ;;
    ret (<["basefee" := basefee]>
         (<["total_basefee" := total_basefee_dt]>
          (<["total_tips_to_miners" := total_tips_to_miners_dt]>
           (<["total_tips_to_validators" := total_tips_to_validators_dt]> ∅)))).

(** The assertion that the source keeps commented out after sampling the
    basefee:
    [abs(basefee - previous_basefee) / previous_basefee
       <= constants.slots_per_epoch / BASE_FEE_MAX_CHANGE_DENOMINATOR
     if timestep > 1 else True]. *)
Definition basefee_change_within_bound
    (basefee previous_basefee BASE_FEE_MAX_CHANGE_DENOMINATOR timestep : F)
    : bool :=
  if nltb (of_int 1) timestep
  then nleb (ndiv (nabs (nsub basefee previous_basefee)) previous_basefee)
            (ndiv slots_per_epoch BASE_FEE_MAX_CHANGE_DENOMINATOR)
  else true.

(** *** [update_eth_price] *)

Definition update_eth_price
    (params : dict F) (substep : Z) (state_history : list (list (dict F)))
    (previous_state policy_input : dict F) : M F (string * value F) :=
  (* Parameters *)
  dt <- getitem params "dt" ;;
  eth_price_process <- getitem params "eth_price_process" ;;
  (* State Variables *)
  run_id <- getitem previous_state "run" ;;
  timestep <- getitem previous_state "timestep" ;;
  (* The ETH price sample for the current run and timestep *)
  t <- py_mul timestep dt ;;
  eth_price_sample <- call_process "eth_price_process"
                        eth_price_process run_id t ;;
  ret ("eth_price", eth_price_sample).

(** *** [update_eth_supply] *)

Definition update_eth_supply
    (params : dict F) (substep : Z) (state_history : list (list (dict F)))
    (previous_state policy_input : dict F) : M F (string * value F) :=
  (* Policy Inputs *)
  network_issuance <- getitem policy_input "network_issuance" ;;
  (* State variables *)
  eth_supply <- getitem previous_state "eth_supply" ;;
  s <- py_add eth_supply network_issuance ;;
  ret ("eth_supply", s).

(** *** The supply over a sequence of timesteps

    The engine writes the pair returned by a state-update function into the
    next state.  [supply_steps] runs the supply updater once per issuance
    value, each time on the state left by the step before. *)

Definition apply_update (st : dict F) (kv : string * value F) : dict F :=
  <[kv.1 := kv.2]> st.

Fixpoint supply_steps (params : dict F) (st : dict F) (issuances : list F)
    : M F (dict F) :=
  match issuances with
  | [] => ret st
  | i :: rest =>
      kv <- update_eth_supply params 0 [] st {["network_issuance" := VNum i]} ;;
      supply_steps params (apply_update st kv) rest
  end.

(** *** Reading the inputs

    What the properties below assume of a parameter or state dictionary:
    a key bound to a number, to a process, and a [stage] key bound to a value
    that [Stage] accepts. *)

Definition num_at (d : dict F) (k : string) (x : F) : Prop :=
  d !! k = Some (VNum x).

Definition proc_at (d : dict F) (k : string) (f : F -> F -> F) : Prop :=
  d !! k = Some (VProc f).

Definition stage_at (d : dict F) (s : Stage) : Prop :=
  d !! "stage" ≫= Stage_of_value = Some s.

(** The divisors among the constants are not zero. *)
Definition divisor_ok (c : F) : Prop := neqb c (of_int 0) = false.

(** The quantities of the fee pricing policy, as it computes them. *)
Definition gas_used_of (transactions_per_day transaction_average_gas : F) : F :=
  nmul (ndiv transactions_per_day epochs_per_day) transaction_average_gas.

Definition gas_limit_of (gas_target ELASTICITY_MULTIPLIER : F) : F :=
  nmul (nmul gas_target ELASTICITY_MULTIPLIER) slots_per_epoch.

Definition fee_calls (run_id t : F) : list (call F) :=
  [Call "eip1559_basefee_process" run_id t;
   Call "eip1559_tip_process" run_id t;
   Call "daily_transactions_process" run_id t].

Definition zero_fees : dict F :=
  <["basefee" := zero]>
  (<["total_basefee" := zero]>
  (<["total_tips_to_miners" := zero]>
  (<["total_tips_to_validators" := zero]> ∅))).

(** [i_1 + ... + i_N] *)
Definition total (issuances : list F) : F :=
  foldr nadd (of_int 0) issuances.

End Operations.

(** ** Exact rational numbers

    The instance on which the functions are run: canonical rationals, with
    Leibniz equality. *)

Definition qc (z : Z) : Qc := Q2Qc (inject_Z z).

#[export] Instance Qc_Number : Number Qc := {
  of_int := qc;
  nadd := Qcplus;
  nsub := Qcminus;
  nmul := Qcmult;
  ndiv := Qcdiv;
  nabs := Qcabs;
  neqb := fun x y => Qeq_bool x y;
  nleb := fun x y => Qle_bool x y;
  nltb := fun x y => negb (Qle_bool y x)
}.

(** The constants of Ethereum: 10^9 Gwei per ETH, 225 epochs per day, 32
    slots per epoch; the stages are numbered from 1 in their order. *)
#[export] Instance ethereum_constants : Constants Qc := {
  gwei := qc 1000000000;
  epochs_per_day := qc 225;
  slots_per_epoch := qc 32;
  stage_value := fun s =>
    match s with
    | PROOF_OF_WORK => qc 1
    | BEACON_CHAIN => qc 2
    | EIP1559 => qc 3
    | PROOF_OF_STAKE => qc 4
    end
}.

(** Constant processes, as in the end-to-end scenario of the specification. *)
Definition constant_process (x : Z) : value Qc := VProc (fun _ _ => qc x).

(** The scenario's parameters: [dt = 1], a gas target of 15 million, an
    elasticity multiplier of 2, a basefee of 100 and a tip of 2; the number
    of transactions per day and the gas per transaction are left open. *)
Definition scenario_params (transactions_per_day transaction_average_gas : Z)
    : dict Qc :=
  <["dt" := VNum (qc 1)]>
  (<["daily_pow_issuance" := VNum (qc 13500)]>
  (<["gas_target" := VNum (qc 15000000)]>
  (<["ELASTICITY_MULTIPLIER" := VNum (qc 2)]>
  (<["BASE_FEE_MAX_CHANGE_DENOMINATOR" := VNum (qc 8)]>
  (<["eip1559_basefee_process" := constant_process 100]>
  (<["eip1559_tip_process" := constant_process 2]>
  (<["daily_transactions_process" := constant_process transactions_per_day]>
  (<["transaction_average_gas" := VNum (qc transaction_average_gas)]>
  (<["eth_price_process" := constant_process 3000]> ∅))))))))).

(** A state of run 1 at timestep 2 in the given stage. *)
Definition scenario_state (stage : value Qc) : dict Qc :=
  <["run" := VNum (qc 1)]>
  (<["timestep" := VNum (qc 2)]>
  (<["stage" := stage]>
  (<["amount_slashed" := VNum (qc 1000000000)]>
  (<["total_basefee" := VNum (qc 2000000000)]>
  (<["total_tips_to_validators" := VNum (qc 3000000000)]>
  (<["total_online_validator_rewards" := VNum (qc 10000000000)]>
  (<["basefee" := VNum (qc 1)]>
  (<["eth_price" := VNum (qc 2500)]>
  (<["eth_supply" := VNum (qc 116250000)]> ∅))))))))).


(** ** Floating-point numbers

    Python's [float], the IEEE 754 binary64 numbers with the operations
    rounded to nearest; an integer enters the arithmetic by its rounded
    conversion. *)

Definition float_of_Z (z : Z) : float :=
  SF2Prim (binary_normalize prec emax z 0 false).

#[export] Instance Float_Number : Number float := {
  of_int := float_of_Z;
  nadd := PrimFloat.add;
  nsub := PrimFloat.sub;
  nmul := PrimFloat.mul;
  ndiv := PrimFloat.div;
  nabs := PrimFloat.abs;
  neqb := PrimFloat.eqb;
  nleb := PrimFloat.leb;
  nltb := PrimFloat.ltb
}.

(** One tenth of an ETH, as the true division of the issuance policy gives
    it: [100000000 / 1000000000]. *)
Definition tenth : float :=
  ndiv (float_of_Z 100000000) (float_of_Z 1000000000).

(** ** The keys read

    The dictionary accesses of each function, in the order in which the
    source makes them, and the first of them that finds no entry. *)

Section Reads.

Context {F : Type} `{Number F} `{Constants F}.

Definition issuance_reads (params previous_state : dict F)
    : list (dict F * string) :=
  [(params, "dt"); (params, "daily_pow_issuance");
   (previous_state, "stage"); (previous_state, "amount_slashed");
   (previous_state, "total_basefee");
   (previous_state, "total_tips_to_validators");
   (previous_state, "total_online_validator_rewards")].

(** The accesses of the fee pricing policy after its stage gate. *)
Definition fee_reads (params previous_state : dict F)
    : list (dict F * string) :=
  [(params, "dt"); (params, "gas_target");
   (params, "ELASTICITY_MULTIPLIER");
   (params, "BASE_FEE_MAX_CHANGE_DENOMINATOR");
   (params, "eip1559_basefee_process"); (params, "eip1559_tip_process");
   (params, "daily_transactions_process");
   (params, "transaction_average_gas");
   (previous_state, "run"); (previous_state, "timestep");
   (previous_state, "basefee")].

Definition price_reads (params previous_state : dict F)
    : list (dict F * string) :=
  [(params, "dt"); (params, "eth_price_process");
   (previous_state, "run"); (previous_state, "timestep")].

Definition supply_reads (previous_state policy_input : dict F)
    : list (dict F * string) :=
  [(policy_input, "network_issuance"); (previous_state, "eth_supply")].

Definition is_missing (read : dict F * string) : bool :=
  match read.1 !! read.2 with
  | Some _ => false
  | None => true
  end.

Definition first_missing (reads : list (dict F * string)) : option string :=
  snd <$> find is_missing reads.

(** The result keys of the two policies. *)
Definition issuance_keys : gset string :=
  {[ "network_issuance"; "pow_issuance" ]}.

Definition fee_keys : gset string :=
  {[ "basefee"; "total_basefee"; "total_tips_to_miners";
     "total_tips_to_validators" ]}.

End Reads.

(** * Properties *)

(** ** The monad *)

Section MonadFacts.

Context {F : Type} `{Number F} `{Constants F}.

Lemma bind_ok {A B} (m : M F A) (k : A -> M F B) a log log' :
  m log = (Ok a, log') -> bind m k log = k a log'.
Proof. intros Hm. unfold bind. now rewrite Hm. Qed.

Lemma getitem_ok (d : dict F) k v log :
  d !! k = Some v -> getitem d k log = (Ok v, log).
Proof. intros Hd. unfold getitem. now rewrite Hd. Qed.

Lemma getitem_num (d : dict F) k x log :
  num_at d k x -> getitem d k log = (Ok (VNum x), log).
Proof. apply getitem_ok. Qed.

Lemma getitem_proc (d : dict F) k f log :
  proc_at d k f -> getitem d k log = (Ok (VProc f), log).
Proof. apply getitem_ok. Qed.

(** Reading the stage and converting it, the first two steps of the fee
    pricing policy and a step of the issuance policy. *)
Lemma stage_at_inv (d : dict F) s :
  stage_at d s ->
  exists v, d !! "stage" = Some v /\ Stage_of_value v = Some s.
Proof.
  unfold stage_at. destruct (d !! "stage") as [v|] eqn:Hv; simpl; [|easy].
  intros Hs. now exists v.
Qed.

Lemma Stage_call_ok (v : value F) s log :
  Stage_of_value v = Some s -> Stage_call v log = (Ok s, log).
Proof. intros Hs. unfold Stage_call. now rewrite Hs. Qed.

Lemma py_truediv_ok (x y : F) log :
  divisor_ok y -> py_truediv (VNum x) (VNum y) log = (Ok (VNum (ndiv x y)), log).
Proof. intros Hy. unfold py_truediv. now rewrite Hy. Qed.

Lemma arith_ok (op : F -> F -> F) (x y : F) log :
  arith op (VNum x) (VNum y) log = (Ok (VNum (op x y)), log).
Proof. reflexivity. Qed.

Lemma call_process_ok name (f : F -> F -> F) (r x : F) log :
  call_process name (VProc f) (VNum r) (VNum x) log =
  (Ok (VNum (f r x)), log ++ [Call name r x]).
Proof. reflexivity. Qed.

End MonadFacts.

(** One step of a computation: rewrite the first [bind] whose left operand
    is shown by [tac] to return normally. *)
Ltac py_step tac := erewrite bind_ok by tac.

(** ** The issuance policy *)

Section Issuance.

Context {F : Type} `{Number F} `{Constants F}.

Variables (params previous_state : dict F).
Variables (substep : Z) (state_history : list (list (dict F))).
Variables (dt daily_pow_issuance : F) (stage : Stage).
Variables (amount_slashed total_basefee total_tips_to_validators
           total_online_validator_rewards : F).

Hypothesis gwei_ok : divisor_ok gwei.
Hypothesis epochs_per_day_ok : divisor_ok epochs_per_day.
Hypothesis params_dt : num_at params "dt" dt.
Hypothesis params_daily_pow_issuance :
  num_at params "daily_pow_issuance" daily_pow_issuance.
Hypothesis state_stage : stage_at previous_state stage.
Hypothesis state_amount_slashed :
  num_at previous_state "amount_slashed" amount_slashed.
Hypothesis state_total_basefee :
  num_at previous_state "total_basefee" total_basefee.
Hypothesis state_total_tips_to_validators :
  num_at previous_state "total_tips_to_validators" total_tips_to_validators.
Hypothesis state_total_online_validator_rewards :
  num_at previous_state "total_online_validator_rewards"
    total_online_validator_rewards.

(** The whole result of the issuance policy on well-formed inputs. *)
Lemma policy_network_issuance_run log :
  let pow_issuance :=
    if stage_in stage [BEACON_CHAIN; EIP1559]
    then ndiv daily_pow_issuance epochs_per_day else of_int 0 in
  let consensus :=
    ndiv (nsub (nsub (nsub total_online_validator_rewards
                           total_tips_to_validators)
                     amount_slashed)
               total_basefee)
         gwei in
  policy_network_issuance params substep state_history previous_state log =
  (Ok (<["network_issuance" := VNum (nadd consensus (nmul pow_issuance dt))]>
       (<["pow_issuance" := VNum pow_issuance]> ∅)), log).
Proof.
  intros pow_issuance consensus.
  destruct (stage_at_inv _ _ state_stage) as (sv & Hsv & Hs).
  unfold policy_network_issuance, py_sub, py_add, py_mul.
  do 2 py_step ltac:(apply getitem_num; eassumption).
  py_step ltac:(apply getitem_ok; eassumption).
  do 4 py_step ltac:(apply getitem_num; eassumption).
  do 3 py_step ltac:(apply arith_ok).
  py_step ltac:(apply py_truediv_ok; assumption).
  py_step ltac:(apply Stage_call_ok; eassumption).
  subst pow_issuance. destruct (stage_in stage [BEACON_CHAIN; EIP1559]).
  - py_step ltac:(apply py_truediv_ok; assumption).
    do 2 py_step ltac:(apply arith_ok).
    reflexivity.
  - py_step ltac:(reflexivity).
    do 2 py_step ltac:(apply arith_ok).
    reflexivity.
Qed.

(** C1: on well-formed inputs the issuance policy returns a
    [network_issuance] equal to
    [((total_online_validator_rewards - total_tips_to_validators)
       - amount_slashed - total_basefee) / gwei + pow_issuance * dt],
    the four aggregates being those of the previous state and
    [pow_issuance] the value returned under that key. *)
Theorem policy_network_issuance_value log :
  exists (d : dict F) (pow_issuance : F),
    policy_network_issuance params substep state_history previous_state log
      = (Ok d, log) /\
    d !! "pow_issuance" = Some (VNum pow_issuance) /\
    d !! "network_issuance" =
      Some (VNum (nadd (ndiv (nsub (nsub (nsub total_online_validator_rewards
                                                total_tips_to_validators)
                                          amount_slashed)
                                    total_basefee)
                              gwei)
                        (nmul pow_issuance dt))).
Proof.
  eexists; eexists. split; [apply policy_network_issuance_run|].
  split; reflexivity.
Qed.

(** C6: on well-formed inputs the issuance policy returns
    [pow_issuance = daily_pow_issuance / epochs_per_day] when the stage is
    BEACON_CHAIN or EIP1559, and [pow_issuance = 0] for every other stage. *)
Theorem policy_network_issuance_pow log :
  exists d : dict F,
    policy_network_issuance params substep state_history previous_state log
      = (Ok d, log) /\
    (stage = BEACON_CHAIN \/ stage = EIP1559 ->
     d !! "pow_issuance" =
       Some (VNum (ndiv daily_pow_issuance epochs_per_day))) /\
    (stage <> BEACON_CHAIN -> stage <> EIP1559 ->
     d !! "pow_issuance" = Some (VNum (of_int 0))).
Proof.
  eexists. split; [apply policy_network_issuance_run|].
  split.
  - intros [-> | ->]; reflexivity.
  - intros Hb He. destruct stage; try reflexivity; congruence.
Qed.

End Issuance.

(** ** The fee pricing policy *)

Section FeePricingGate.

Context {F : Type} `{Number F} `{Constants F}.

(** Outside the two fee-market stages the policy returns after reading and
    converting the stage. *)
Lemma fee_policy_inactive (params previous_state : dict F) substep
    state_history stage log :
  stage_at previous_state stage ->
  stage_in stage [EIP1559; PROOF_OF_STAKE] = false ->
  policy_eip1559_transaction_pricing params substep state_history
    previous_state log = (Ok zero_fees, log).
Proof.
  intros Hstage Hin.
  destruct (stage_at_inv _ _ Hstage) as (sv & Hsv & Hs).
  unfold policy_eip1559_transaction_pricing.
  py_step ltac:(apply getitem_ok; eassumption).
  py_step ltac:(apply Stage_call_ok; eassumption).
  now rewrite Hin.
Qed.

(** C2: when the stage of the previous state is neither EIP1559 nor
    PROOF_OF_STAKE, the policy returns [basefee], [total_basefee],
    [total_tips_to_miners] and [total_tips_to_validators] all equal to the
    literal [0], and the log of process calls is left as it was: no process
    is sampled. *)
Theorem fee_policy_inactive_zero (params previous_state : dict F) substep
    state_history stage log :
  stage_at previous_state stage ->
  stage <> EIP1559 -> stage <> PROOF_OF_STAKE ->
  exists d : dict F,
    policy_eip1559_transaction_pricing params substep state_history
      previous_state log = (Ok d, log) /\
    d !! "basefee" = Some (VNum (of_int 0)) /\
    d !! "total_basefee" = Some (VNum (of_int 0)) /\
    d !! "total_tips_to_miners" = Some (VNum (of_int 0)) /\
    d !! "total_tips_to_validators" = Some (VNum (of_int 0)) /\
    dom d = {[ "basefee"; "total_basefee"; "total_tips_to_miners";
               "total_tips_to_validators" ]}.
Proof.
  intros Hstage He Hp. exists zero_fees. split.
  - apply fee_policy_inactive with (stage := stage); [assumption|].
    destruct stage; try reflexivity; congruence.
  - repeat split; reflexivity.
Qed.

(** C9: when the stage of the previous state is neither EIP1559 nor
    PROOF_OF_STAKE, the policy reads the [stage] field only: it returns its
    all-zero result for any parameters, the empty dictionary among them, and
    for any other state with the same [stage] entry. *)
Theorem fee_policy_inactive_reads_stage_only
    (params params' previous_state previous_state' : dict F) substep
    state_history stage log :
  stage_at previous_state stage ->
  stage <> EIP1559 -> stage <> PROOF_OF_STAKE ->
  previous_state' !! "stage" = previous_state !! "stage" ->
  policy_eip1559_transaction_pricing ∅ substep state_history
    previous_state log = (Ok zero_fees, log) /\
  policy_eip1559_transaction_pricing params' substep state_history
    previous_state' log =
  policy_eip1559_transaction_pricing params substep state_history
    previous_state log.
Proof.
  intros Hstage He Hp Hsame.
  assert (Hin : stage_in stage [EIP1559; PROOF_OF_STAKE] = false)
    by (destruct stage; try reflexivity; congruence).
  assert (Hstage' : stage_at previous_state' stage)
    by (unfold stage_at; now rewrite Hsame).
  split.
  - now apply fee_policy_inactive with (stage := stage).
  - rewrite !(fee_policy_inactive _ _ _ _ stage) by assumption. reflexivity.
Qed.

(** C10: the result of the policy does not depend on the value of the
    [basefee] field of the previous state: two states that have the key and
    agree on every other key give the same outcome and the same calls. *)
Theorem fee_policy_ignores_previous_basefee
    (params previous_state previous_state' : dict F) substep state_history
    log :
  is_Some (previous_state !! "basefee") ->
  is_Some (previous_state' !! "basefee") ->
  (forall k, k <> "basefee" -> previous_state' !! k = previous_state !! k) ->
  policy_eip1559_transaction_pricing params substep state_history
    previous_state' log =
  policy_eip1559_transaction_pricing params substep state_history
    previous_state log.
Proof.
  intros [v Hv] [v' Hv'] Hsame.
  unfold policy_eip1559_transaction_pricing, bind, getitem.
  rewrite !Hsame by discriminate. rewrite Hv, Hv'. reflexivity.
Qed.

End FeePricingGate.

Section FeePricing.

Context {F : Type} `{Number F} `{Constants F}.

Variables (params previous_state : dict F).
Variables (substep : Z) (state_history : list (list (dict F))).
Variables (dt gas_target ELASTICITY_MULTIPLIER BASE_FEE_MAX_CHANGE_DENOMINATOR
           transaction_average_gas : F).
Variables (eip1559_basefee_process eip1559_tip_process
           daily_transactions_process : F -> F -> F).
Variables (stage : Stage) (run_id timestep : F) (previous_basefee : value F).

Hypothesis epochs_per_day_ok : divisor_ok epochs_per_day.
Hypothesis params_dt : num_at params "dt" dt.
Hypothesis params_gas_target : num_at params "gas_target" gas_target.
Hypothesis params_ELASTICITY_MULTIPLIER :
  num_at params "ELASTICITY_MULTIPLIER" ELASTICITY_MULTIPLIER.
Hypothesis params_BASE_FEE_MAX_CHANGE_DENOMINATOR :
  num_at params "BASE_FEE_MAX_CHANGE_DENOMINATOR"
    BASE_FEE_MAX_CHANGE_DENOMINATOR.
Hypothesis params_eip1559_basefee_process :
  proc_at params "eip1559_basefee_process" eip1559_basefee_process.
Hypothesis params_eip1559_tip_process :
  proc_at params "eip1559_tip_process" eip1559_tip_process.
Hypothesis params_daily_transactions_process :
  proc_at params "daily_transactions_process" daily_transactions_process.
Hypothesis params_transaction_average_gas :
  num_at params "transaction_average_gas" transaction_average_gas.
Hypothesis state_stage : stage_at previous_state stage.
Hypothesis state_run : num_at previous_state "run" run_id.
Hypothesis state_timestep : num_at previous_state "timestep" timestep.
Hypothesis state_basefee : previous_state !! "basefee" = Some previous_basefee.
Hypothesis stage_active : stage_in stage [EIP1559; PROOF_OF_STAKE] = true.

(** The samples and the derived quantities of one execution. *)
#[local] Abbreviation t := (nmul timestep dt).
#[local] Abbreviation basefee := (eip1559_basefee_process run_id t).
#[local] Abbreviation avg_tip_amount := (eip1559_tip_process run_id t).
#[local] Abbreviation gas_used :=
  (gas_used_of (daily_transactions_process run_id t) transaction_average_gas).
#[local] Abbreviation gas_limit :=
  (gas_limit_of gas_target ELASTICITY_MULTIPLIER).
#[local] Abbreviation total_tips := (nmul gas_used avg_tip_amount).

(** The whole result of the fee pricing policy on a well-formed input in a
    fee-market stage: the three processes are sampled, then the gas check
    decides between the result and the assertion failure. *)
Lemma fee_policy_active_run log :
  policy_eip1559_transaction_pricing params substep state_history
    previous_state log =
  (if nleb gas_used gas_limit
   then Ok (<["basefee" := VNum basefee]>
            (<["total_basefee" := VNum (nmul (nmul gas_used basefee) dt)]>
             (<["total_tips_to_miners" :=
                  VNum (nmul (if stage_in stage [PROOF_OF_STAKE]
                              then of_int 0 else total_tips) dt)]>
              (<["total_tips_to_validators" :=
                   VNum (nmul (if stage_in stage [PROOF_OF_STAKE]
                               then total_tips else of_int 0) dt)]> ∅))))
   else Raise (AssertionError "invalid block: too much gas used"),
   log ++ fee_calls run_id t).
Proof.
  destruct (stage_at_inv _ _ state_stage) as (sv & Hsv & Hs).
  unfold policy_eip1559_transaction_pricing, py_mul.
  py_step ltac:(apply getitem_ok; eassumption).
  py_step ltac:(apply Stage_call_ok; eassumption).
  rewrite stage_active. cbn [negb].
  do 4 py_step ltac:(apply getitem_num; eassumption).
  do 3 py_step ltac:(apply getitem_proc; eassumption).
  py_step ltac:(apply getitem_num; eassumption).
  do 2 py_step ltac:(apply getitem_num; eassumption).
  py_step ltac:(apply getitem_ok; eassumption).
  do 3 (py_step ltac:(apply arith_ok); py_step ltac:(apply call_process_ok)).
  py_step ltac:(apply py_truediv_ok; assumption).
  do 3 py_step ltac:(apply arith_ok).
  unfold fee_calls, gas_used_of, gas_limit_of. rewrite <- !app_assoc. cbn [app].
  destruct (stage_in stage [PROOF_OF_STAKE]);
    do 2 py_step ltac:(apply arith_ok);
    (py_step ltac:(reflexivity));
    match goal with |- context [py_assert ?c _] => destruct c end;
    reflexivity.
Qed.

(** C3: on a fee-market input that passes the gas check, the proof-of-stake
    stage sends the tips to the validators,
    [total_tips_to_miners = 0] and
    [total_tips_to_validators = total_tips * dt] with
    [total_tips = gas_used * avg_tip_amount], and the EIP1559 stage sends
    them to the miners. *)
Theorem fee_policy_tips_split `{!NumberLaws F} log :
  nleb gas_used gas_limit = true ->
  exists d : dict F,
    policy_eip1559_transaction_pricing params substep state_history
      previous_state log = (Ok d, log ++ fee_calls run_id t) /\
    (stage = PROOF_OF_STAKE ->
     d !! "total_tips_to_miners" = Some (VNum (of_int 0)) /\
     d !! "total_tips_to_validators" = Some (VNum (nmul total_tips dt))) /\
    (stage = EIP1559 ->
     d !! "total_tips_to_validators" = Some (VNum (of_int 0)) /\
     d !! "total_tips_to_miners" = Some (VNum (nmul total_tips dt))).
Proof.
  intros Hgas. eexists. split.
  - rewrite fee_policy_active_run, Hgas. reflexivity.
  - split; intros ->; (split; [|reflexivity]);
      (transitivity (Some (VNum (nmul (of_int 0) dt)));
         [reflexivity | now rewrite nmul_0_l]).
Qed.

(** C4: on a well-formed fee-market input the policy raises the assertion
    error exactly when [gas_used] is strictly above
    [gas_target * ELASTICITY_MULTIPLIER * slots_per_epoch]: it returns when
    [gas_used] is at the bound and raises one unit above it. *)
Theorem fee_policy_gas_check `{!NumberLaws F} log :
  let result :=
    fst (policy_eip1559_transaction_pricing params substep state_history
           previous_state log) in
  (nltb gas_limit gas_used = true ->
   result = Raise (AssertionError "invalid block: too much gas used")) /\
  (nltb gas_limit gas_used = false -> exists d, result = Ok d) /\
  (gas_used = gas_limit -> exists d, result = Ok d) /\
  (gas_used = nadd gas_limit (of_int 1) ->
   result = Raise (AssertionError "invalid block: too much gas used")).
Proof.
  intros result. subst result. rewrite fee_policy_active_run. cbn [fst].
  rewrite (nleb_nltb gas_used gas_limit).
  repeat split.
  - intros ->. reflexivity.
  - intros ->. eexists. reflexivity.
  - intros ->. rewrite <- nleb_nltb, nleb_refl. eexists. reflexivity.
  - intros ->. rewrite nltb_succ. reflexivity.
Qed.

(** C5, as the code has it: the policy does not compare the sampled basefee
    with the previous one.  On a well-formed fee-market input that passes the
    gas check it returns, for any timestep and any previous basefee, and the
    basefee it returns is the sample as it is. *)
Theorem fee_policy_basefee_unchecked log :
  nleb gas_used gas_limit = true ->
  exists d : dict F,
    policy_eip1559_transaction_pricing params substep state_history
      previous_state log = (Ok d, log ++ fee_calls run_id t) /\
    d !! "basefee" = Some (VNum basefee).
Proof.
  intros Hgas. eexists. split.
  - rewrite fee_policy_active_run, Hgas. reflexivity.
  - reflexivity.
Qed.

End FeePricing.


(** ** The state-update functions *)

Section Updaters.

Context {F : Type} `{Number F} `{Constants F}.

(** One step of the supply updater. *)
Lemma update_eth_supply_run (params previous_state policy_input : dict F)
    substep state_history (eth_supply network_issuance : F) log :
  num_at previous_state "eth_supply" eth_supply ->
  num_at policy_input "network_issuance" network_issuance ->
  update_eth_supply params substep state_history previous_state policy_input
    log = (Ok ("eth_supply", VNum (nadd eth_supply network_issuance)), log).
Proof.
  intros Hs Hi. unfold update_eth_supply, py_add.
  do 2 py_step ltac:(apply getitem_num; eassumption).
  py_step ltac:(apply arith_ok).
  reflexivity.
Qed.

(** Running the steps of [l1 ++ l2] is running those of [l1] and then those
    of [l2] on the state they leave. *)
Lemma supply_steps_app (params st : dict F) (l1 l2 : list F) log :
  supply_steps params st (l1 ++ l2) log =
  (st' <- supply_steps params st l1 ;; supply_steps params st' l2) log.
Proof.
  revert st log. induction l1 as [|i l1 IH]; intros st log.
  - reflexivity.
  - cbn [app supply_steps]. unfold bind in IH |- *.
    destruct (update_eth_supply _ _ _ _ _ log) as [[kv|e] log'].
    + apply IH.
    + reflexivity.
Qed.

(** The steps add the issuance values to the supply one after the other,
    from the left. *)
Lemma supply_steps_run (params : dict F) (issuances : list F) :
  forall (st : dict F) (S0 : F) log,
    num_at st "eth_supply" S0 ->
    supply_steps params st issuances log =
    (Ok (<["eth_supply" := VNum (foldl nadd S0 issuances)]> st), log).
Proof.
  induction issuances as [|i rest IH]; intros st S0 log HS0.
  - cbn [supply_steps foldl]. unfold ret. now rewrite insert_id.
  - cbn [supply_steps].
    py_step ltac:(apply update_eth_supply_run with (network_issuance := i);
                  [eassumption | apply lookup_singleton_eq]).
    unfold apply_update. cbn [fst snd].
    rewrite (IH _ (nadd S0 i)) by apply lookup_insert_eq.
    now rewrite insert_insert_eq.
Qed.

Lemma total_app `{!NumberLaws F} (l1 l2 : list F) :
  total (l1 ++ l2) = nadd (total l1) (total l2).
Proof.
  induction l1 as [|i l1 IH]; cbn [app total foldr].
  - now rewrite nadd_0_l.
  - fold (total (l1 ++ l2)) (total l1). now rewrite IH, nadd_assoc.
Qed.

Lemma foldl_nadd_total `{!NumberLaws F} (l : list F) :
  forall S0 : F, foldl nadd S0 l = nadd S0 (total l).
Proof.
  induction l as [|i l IH]; intros S0; cbn [foldl total foldr].
  - now rewrite nadd_0_r.
  - fold (total l). now rewrite IH, nadd_assoc.
Qed.

(** C7, as the code has it: the supply updater returns the previous
    [eth_supply] plus [network_issuance]; applied once per issuance value
    [i_1 .. i_N] from the supply [S0] it leaves the sum taken from the left,
    [((S0 + i_1) + i_2) + ... + i_N], and running the steps in two parts
    leaves the same state.  That sum is [S0 + (i_1 + ... + i_N)], however
    the values are grouped, when the addition of the numbers is associative
    with unit [0]. *)
Theorem update_eth_supply_left_fold (params st : dict F)
    substep state_history (S0 : F) :
  num_at st "eth_supply" S0 ->
  (forall (policy_input : dict F) (i : F) log,
     num_at policy_input "network_issuance" i ->
     update_eth_supply params substep state_history st policy_input log =
     (Ok ("eth_supply", VNum (nadd S0 i)), log)) /\
  (forall (issuances : list F) log,
     exists st' : dict F,
       supply_steps params st issuances log = (Ok st', log) /\
       st' !! "eth_supply" = Some (VNum (foldl nadd S0 issuances))) /\
  (forall (l1 l2 : list F) log,
     exists st1 st2 : dict F,
       supply_steps params st l1 log = (Ok st1, log) /\
       supply_steps params st1 l2 log = (Ok st2, log) /\
       supply_steps params st (l1 ++ l2) log = (Ok st2, log)) /\
  (NumberLaws F ->
   (forall issuances : list F,
      foldl nadd S0 issuances = nadd S0 (total issuances)) /\
   (forall l1 l2 : list F,
      nadd S0 (total (l1 ++ l2)) = nadd (nadd S0 (total l1)) (total l2))).
Proof.
  intros HS0. split; [|split; [|split]].
  - intros policy_input i log Hi. now apply update_eth_supply_run.
  - intros issuances log. eexists. split.
    + apply (supply_steps_run params issuances st S0 log HS0).
    + apply lookup_insert_eq.
  - intros l1 l2 log.
    pose proof (supply_steps_run params l1 st S0 log HS0) as H1.
    set (st1 := <["eth_supply" := VNum (foldl nadd S0 l1)]> st) in *.
    assert (Hst1 : num_at st1 "eth_supply" (foldl nadd S0 l1))
      by apply lookup_insert_eq.
    pose proof (supply_steps_run params l2 st1 _ log Hst1) as H2.
    eexists; eexists. split; [exact H1|]. split; [exact H2|].
    rewrite supply_steps_app. now rewrite (bind_ok _ _ _ _ _ H1).
  - intros Hlaws. split.
    + intros issuances. apply foldl_nadd_total.
    + intros l1 l2. now rewrite total_app, nadd_assoc.
Qed.

(** C8: the price updater returns the sample
    [eth_price_process(run, timestep * dt)] under the key [eth_price],
    whatever the policy input and whatever the previous [eth_price]. *)
Theorem update_eth_price_pass_through (params st : dict F) substep
    state_history (dt : F) (eth_price_process : F -> F -> F)
    (run_id timestep : F) :
  num_at params "dt" dt ->
  proc_at params "eth_price_process" eth_price_process ->
  num_at st "run" run_id ->
  num_at st "timestep" timestep ->
  forall (policy_input : dict F) (eth_price : value F) log,
    let sample := eth_price_process run_id (nmul timestep dt) in
    let calls := log ++ [Call "eth_price_process" run_id (nmul timestep dt)] in
    update_eth_price params substep state_history st policy_input log =
      (Ok ("eth_price", VNum sample), calls) /\
    update_eth_price params substep state_history
      (<["eth_price" := eth_price]> st) policy_input log =
      (Ok ("eth_price", VNum sample), calls) /\
    (r1 <- update_eth_price params substep state_history st policy_input ;;
     r2 <- update_eth_price params substep state_history st policy_input ;;
     ret (r1, r2)) log =
      (Ok (("eth_price", VNum sample), ("eth_price", VNum sample)),
       calls ++ [Call "eth_price_process" run_id (nmul timestep dt)]).
Proof.
  intros Hdt Hp Hrun Hts policy_input eth_price log sample calls.
  assert (Hgen : forall (st' : dict F) log',
            num_at st' "run" run_id -> num_at st' "timestep" timestep ->
            update_eth_price params substep state_history st' policy_input
              log'
            = (Ok ("eth_price", VNum sample),
               log' ++ [Call "eth_price_process" run_id (nmul timestep dt)])).
  { intros st' log' Hrun' Hts'. unfold update_eth_price, py_mul.
    py_step ltac:(apply getitem_num; eassumption).
    py_step ltac:(apply getitem_proc; eassumption).
    do 2 py_step ltac:(apply getitem_num; eassumption).
    py_step ltac:(apply arith_ok).
    py_step ltac:(apply call_process_ok).
    reflexivity. }
  split; [|split].
  - now apply Hgen.
  - apply Hgen; unfold num_at; now rewrite lookup_insert_ne.
  - do 2 py_step ltac:(apply Hgen; assumption).
    reflexivity.
Qed.

End Updaters.

(** ** The rational instance *)

Lemma Qc_NumberLaws : NumberLaws Qc.
Proof.
  split; cbn [nadd nmul nleb nltb of_int Qc_Number].
  - apply Qcplus_assoc.
  - apply Qcplus_0_l.
  - apply Qcplus_0_r.
  - apply Qcmult_0_l.
  - intros x. apply Qle_bool_iff, Qle_refl.
  - intros x y. now rewrite negb_involutive.
  - intros x. apply negb_true_iff, not_true_is_false.
    rewrite Qle_bool_iff. intros Hle.
    apply (Qcle_not_lt _ _ Hle).
    apply Qclt_minus_iff.
    replace (x + qc 1 + - x)%Qc with (qc 1) by ring.
    reflexivity.
Qed.

(** ** The functions at work

    The theorems above applied to the scenario of the specification, on
    rationals and with the constants of Ethereum. *)

Ltac by_evaluation := vm_compute; reflexivity.

(** The issuance policy in the EIP1559 stage: 4 ETH of net consensus
    issuance and 60 ETH of proof-of-work issuance per epoch. *)
Lemma policy_network_issuance_value_scenario :
  exists (d : dict Qc) (pow_issuance : Qc),
    run (policy_network_issuance (scenario_params 225000 21000) 1 []
           (scenario_state (VStage EIP1559))) = (Ok d, []) /\
    d !! "pow_issuance" = Some (VNum pow_issuance) /\
    d !! "network_issuance" =
      Some (VNum (nadd (ndiv (nsub (nsub (nsub (qc 10000000000)
                                                (qc 3000000000))
                                          (qc 1000000000))
                                    (qc 2000000000))
                              gwei)
                        (nmul pow_issuance (qc 1)))).
Proof.
  apply (policy_network_issuance_value (scenario_params 225000 21000)
           (scenario_state (VStage EIP1559)) 1 [] (qc 1) (qc 13500) EIP1559
           (qc 1000000000) (qc 2000000000) (qc 3000000000) (qc 10000000000));
    by_evaluation.
Defined.

(** The proof-of-work issuance of the EIP1559 stage. *)
Lemma policy_network_issuance_pow_scenario :
  exists d : dict Qc,
    run (policy_network_issuance (scenario_params 225000 21000) 1 []
           (scenario_state (VStage EIP1559))) = (Ok d, []) /\
    d !! "pow_issuance" = Some (VNum (ndiv (qc 13500) (qc 225))).
Proof.
  destruct (policy_network_issuance_pow (H := Qc_Number)
              (H0 := ethereum_constants) (scenario_params 225000 21000)
              (scenario_state (VStage EIP1559)) 1 [] (qc 1) (qc 13500) EIP1559
              (qc 1000000000) (qc 2000000000) (qc 3000000000)
              (qc 10000000000)
              ltac:(by_evaluation) ltac:(by_evaluation) ltac:(by_evaluation)
              ltac:(by_evaluation) ltac:(by_evaluation) ltac:(by_evaluation)
              ltac:(by_evaluation) ltac:(by_evaluation) ltac:(by_evaluation)
              []) as (d & Hrun & Hpow & _).
  exists d. split; [exact Hrun|]. apply Hpow. right. reflexivity.
Defined.

(** The fee pricing policy in the BEACON_CHAIN stage, without parameters. *)
Lemma fee_policy_inactive_zero_scenario :
  exists d : dict Qc,
    run (policy_eip1559_transaction_pricing ∅ 1 []
           (scenario_state (VStage BEACON_CHAIN))) = (Ok d, []) /\
    d !! "basefee" = Some (VNum (qc 0)) /\
    d !! "total_basefee" = Some (VNum (qc 0)) /\
    d !! "total_tips_to_miners" = Some (VNum (qc 0)) /\
    d !! "total_tips_to_validators" = Some (VNum (qc 0)) /\
    dom d = {[ "basefee"; "total_basefee"; "total_tips_to_miners";
               "total_tips_to_validators" ]}.
Proof.
  refine (fee_policy_inactive_zero (H := Qc_Number) (H0 := ethereum_constants)
            ∅ (scenario_state (VStage BEACON_CHAIN)) 1 [] BEACON_CHAIN []
            _ _ _);
    [by_evaluation | discriminate | discriminate].
Defined.

Lemma fee_policy_inactive_reads_stage_only_scenario :
  policy_eip1559_transaction_pricing ∅ 1 []
    (scenario_state (VStage BEACON_CHAIN)) [] = (Ok zero_fees, []) /\
  policy_eip1559_transaction_pricing ∅ 1 []
    {[ "stage" := VStage BEACON_CHAIN ]} [] =
  policy_eip1559_transaction_pricing (scenario_params 225000 21000) 1 []
    (scenario_state (VStage BEACON_CHAIN)) [].
Proof.
  refine (fee_policy_inactive_reads_stage_only (H := Qc_Number)
            (H0 := ethereum_constants)
            (scenario_params 225000 21000) ∅
            (scenario_state (VStage BEACON_CHAIN))
            {[ "stage" := VStage BEACON_CHAIN ]} 1 [] BEACON_CHAIN []
            _ _ _ _);
    [by_evaluation | discriminate | discriminate | by_evaluation].
Defined.

Lemma fee_policy_ignores_previous_basefee_scenario :
  policy_eip1559_transaction_pricing (scenario_params 225000 21000) 1 []
    (<["basefee" := VNum (qc 7)]> (scenario_state (VStage EIP1559))) [] =
  policy_eip1559_transaction_pricing (scenario_params 225000 21000) 1 []
    (scenario_state (VStage EIP1559)) [].
Proof.
  apply fee_policy_ignores_previous_basefee.
  - exists (VNum (qc 1)). by_evaluation.
  - exists (VNum (qc 7)). by_evaluation.
  - intros k Hk. apply lookup_insert_ne. congruence.
Defined.

(** The scenario in the proof-of-stake stage: 1000 transactions of 21000 gas
    per epoch at a tip of 2 give 42 million Gwei of tips, all of them to the
    validators. *)
Lemma fee_policy_tips_split_scenario :
  exists d : dict Qc,
    run (policy_eip1559_transaction_pricing (scenario_params 225000 21000) 1
           [] (scenario_state (VStage PROOF_OF_STAKE)))
      = (Ok d, fee_calls (qc 1) (nmul (qc 2) (qc 1))) /\
    d !! "total_tips_to_miners" = Some (VNum (qc 0)) /\
    d !! "total_tips_to_validators" = Some (VNum (qc 42000000)).
Proof.
  destruct (fee_policy_tips_split (H := Qc_Number)
              (H0 := ethereum_constants) (scenario_params 225000 21000)
              (scenario_state (VStage PROOF_OF_STAKE)) 1 []
              (qc 1) (qc 15000000) (qc 2) (qc 8) (qc 21000)
              (fun _ _ => qc 100) (fun _ _ => qc 2) (fun _ _ => qc 225000)
              PROOF_OF_STAKE (qc 1) (qc 2) (VNum (qc 1))
              ltac:(by_evaluation) ltac:(by_evaluation) ltac:(by_evaluation)
              ltac:(by_evaluation) ltac:(by_evaluation) ltac:(by_evaluation)
              ltac:(by_evaluation) ltac:(by_evaluation) ltac:(by_evaluation)
              ltac:(by_evaluation) ltac:(by_evaluation) ltac:(by_evaluation)
              ltac:(by_evaluation) ltac:(by_evaluation)
              (NumberLaws0 := Qc_NumberLaws) [] ltac:(by_evaluation))
    as (d & Hrun & Hpos & _).
  destruct (Hpos eq_refl) as [Hminers Hvalidators].
  exists d. split; [exact Hrun|]. split; [exact Hminers|].
  rewrite Hvalidators. apply (f_equal (fun x => Some (VNum x))).
  apply Qc_is_canon. by_evaluation.
Defined.

(** The gas check at its boundary: with one unit of gas per transaction,
    960 million transactions per epoch use exactly
    [15000000 * 2 * 32] gas and the policy returns; one transaction more
    and it raises. *)
Lemma fee_policy_gas_check_boundary :
  (exists d : dict Qc,
     fst (run (policy_eip1559_transaction_pricing
                 (scenario_params (225 * 960000000) 1) 1 []
                 (scenario_state (VStage EIP1559)))) = Ok d) /\
  fst (run (policy_eip1559_transaction_pricing
              (scenario_params (225 * 960000001) 1) 1 []
              (scenario_state (VStage EIP1559))))
    = Raise (AssertionError "invalid block: too much gas used").
Proof.
  split.
  - unshelve epose proof
      (fee_policy_gas_check (H := Qc_Number) (H0 := ethereum_constants)
         (scenario_params (225 * 960000000) 1)
         (scenario_state (VStage EIP1559)) 1 []
         (qc 1) (qc 15000000) (qc 2) (qc 8) (qc 1)
         (fun _ _ => qc 100) (fun _ _ => qc 2)
         (fun _ _ => qc (225 * 960000000))
         EIP1559 (qc 1) (qc 2) (VNum (qc 1))
         _ _ _ _ _ _ _ _ _ _ _ _ _ _ (NumberLaws0 := Qc_NumberLaws) [])
      as (_ & _ & Hat & _).
    1-14: by_evaluation.
    apply Hat. apply Qc_is_canon. by_evaluation.
  - unshelve epose proof
      (fee_policy_gas_check (H := Qc_Number) (H0 := ethereum_constants)
         (scenario_params (225 * 960000001) 1)
         (scenario_state (VStage EIP1559)) 1 []
         (qc 1) (qc 15000000) (qc 2) (qc 8) (qc 1)
         (fun _ _ => qc 100) (fun _ _ => qc 2)
         (fun _ _ => qc (225 * 960000001))
         EIP1559 (qc 1) (qc 2) (VNum (qc 1))
         _ _ _ _ _ _ _ _ _ _ _ _ _ _ (NumberLaws0 := Qc_NumberLaws) [])
      as (_ & _ & _ & Habove).
    1-14: by_evaluation.
    apply Habove. apply Qc_is_canon. by_evaluation.
Defined.

(** The same two runs by evaluation of the policy. *)
Example gas_at_limit_returns :
  match fst (run (policy_eip1559_transaction_pricing
                    (scenario_params (225 * 960000000) 1) 1 []
                    (scenario_state (VStage EIP1559)))) with
  | Ok _ => true
  | Raise _ => false
  end = true.
Proof. by_evaluation. Qed.

Example gas_above_limit_raises :
  fst (run (policy_eip1559_transaction_pricing
              (scenario_params (225 * 960000001) 1) 1 []
              (scenario_state (VStage EIP1559))))
    = Raise (AssertionError "invalid block: too much gas used").
Proof. by_evaluation. Qed.

(** C5 as stated does not hold: in the scenario the state is at timestep 2
    with a previous basefee of 1 and the sampled basefee is 100, a change of
    99 times the previous value where [32 / 8 = 4] is allowed; the policy
    returns, and the basefee it returns is 100. *)
Lemma basefee_change_not_enforced :
  scenario_state (VStage EIP1559) !! "timestep" = Some (VNum (qc 2)) /\
  scenario_state (VStage EIP1559) !! "basefee" = Some (VNum (qc 1)) /\
  basefee_change_within_bound (qc 100) (qc 1) (qc 8) (qc 2) = false /\
  exists d : dict Qc,
    run (policy_eip1559_transaction_pricing (scenario_params 225000 21000) 1
           [] (scenario_state (VStage EIP1559)))
      = (Ok d, fee_calls (qc 1) (nmul (qc 2) (qc 1))) /\
    d !! "basefee" = Some (VNum (qc 100)).
Proof.
  split; [by_evaluation|]. split; [by_evaluation|]. split; [by_evaluation|].
  unshelve epose proof
    (fee_policy_active_run (H := Qc_Number) (H0 := ethereum_constants)
       (scenario_params 225000 21000) (scenario_state (VStage EIP1559)) 1 []
       (qc 1) (qc 15000000) (qc 2) (qc 8) (qc 21000)
       (fun _ _ => qc 100) (fun _ _ => qc 2) (fun _ _ => qc 225000)
       EIP1559 (qc 1) (qc 2) (VNum (qc 1))
       _ _ _ _ _ _ _ _ _ _ _ _ _ _ []) as Hrun.
  1-14: by_evaluation.
  match type of Hrun with
  | context [nleb ?a ?b] =>
      replace (nleb a b) with true in Hrun by by_evaluation
  end.
  eexists. split; [exact Hrun|]. reflexivity.
Qed.

Lemma fee_policy_basefee_unchecked_scenario :
  exists d : dict Qc,
    run (policy_eip1559_transaction_pricing (scenario_params 225000 21000) 1
           [] (scenario_state (VStage EIP1559)))
      = (Ok d, fee_calls (qc 1) (nmul (qc 2) (qc 1))) /\
    d !! "basefee" = Some (VNum (qc 100)).
Proof.
  refine (fee_policy_basefee_unchecked (H := Qc_Number)
            (H0 := ethereum_constants)
            (scenario_params 225000 21000) (scenario_state (VStage EIP1559))
            1 [] (qc 1) (qc 15000000) (qc 2) (qc 8) (qc 21000)
            (fun _ _ => qc 100) (fun _ _ => qc 2) (fun _ _ => qc 225000)
            EIP1559 (qc 1) (qc 2) (VNum (qc 1))
            _ _ _ _ _ _ _ _ _ _ _ _ _ _ [] _);
    by_evaluation.
Defined.

(** Three timesteps with issuances 64, -3 and 5 from a supply of
    116250000 ETH. *)
Lemma update_eth_supply_left_fold_scenario :
  exists st' : dict Qc,
    run (supply_steps ∅ (scenario_state (VStage EIP1559))
           [qc 64; qc (-3); qc 5]) = (Ok st', []) /\
    st' !! "eth_supply" = Some (VNum (qc 116250066)).
Proof.
  destruct (update_eth_supply_left_fold (H := Qc_Number) ∅
              (scenario_state (VStage EIP1559)) 1 [] (qc 116250000)
              ltac:(by_evaluation)) as (_ & Hsteps & _).
  destruct (Hsteps [qc 64; qc (-3); qc 5] []) as (st' & Hrun & Hsupply).
  exists st'. split; [exact Hrun|].
  rewrite Hsupply. apply (f_equal (fun x => Some (VNum x))).
  apply Qc_is_canon. by_evaluation.
Defined.

(** C7 as stated does not hold of floating-point numbers: from a supply of
    116250000 ETH two timesteps that each issue a tenth of an ETH leave
    [(116250000 + 0.1) + 0.1 = 116250000.19999999], below
    [116250000 + (0.1 + 0.1) = 116250000.2], which is also what one timestep
    issuing [0.1 + 0.1] leaves. *)
Lemma eth_supply_grouping_fails_on_floats :
  let S0 := float_of_Z 116250000 in
  let st : dict float := {[ "eth_supply" := VNum S0 ]} in
  let two_steps := nadd (nadd S0 tenth) tenth in
  let grouped := nadd S0 (total [tenth; tenth]) in
  run (supply_steps ∅ st [tenth; tenth])
    = (Ok {[ "eth_supply" := VNum two_steps ]}, []) /\
  run (supply_steps ∅ st [nadd tenth tenth])
    = (Ok {[ "eth_supply" := VNum grouped ]}, []) /\
  neqb two_steps grouped = false /\
  nltb two_steps grouped = true /\
  two_steps <> grouped.
Proof.
  intros S0 st two_steps grouped.
  split; [by_evaluation|]. split; [by_evaluation|].
  split; [by_evaluation|]. split; [by_evaluation|].
  intros Heq.
  assert (Hsame : neqb two_steps grouped = neqb grouped grouped)
    by now rewrite Heq.
  vm_compute in Hsame. discriminate.
Qed.

Lemma update_eth_price_pass_through_scenario :
  let calls := [Call "eth_price_process" (qc 1) (nmul (qc 2) (qc 1))] in
  run (update_eth_price (scenario_params 225000 21000) 1 []
         (scenario_state (VStage EIP1559)) ∅)
    = (Ok ("eth_price", VNum (qc 3000)), calls) /\
  run (update_eth_price (scenario_params 225000 21000) 1 []
         (<["eth_price" := VNum (qc 1)]> (scenario_state (VStage EIP1559)))
         ∅)
    = (Ok ("eth_price", VNum (qc 3000)), calls) /\
  run (r1 <- update_eth_price (scenario_params 225000 21000) 1 []
               (scenario_state (VStage EIP1559)) ∅ ;;
       r2 <- update_eth_price (scenario_params 225000 21000) 1 []
               (scenario_state (VStage EIP1559)) ∅ ;;
       ret (r1, r2))
    = (Ok (("eth_price", VNum (qc 3000)), ("eth_price", VNum (qc 3000))),
       calls ++ calls).
Proof.
  refine (update_eth_price_pass_through (H := Qc_Number)
            (scenario_params 225000 21000) (scenario_state (VStage EIP1559))
            1 [] (qc 1) (fun _ _ => qc 3000) (qc 1) (qc 2) _ _ _ _
            ∅ (VNum (qc 1)) []);
    by_evaluation.
Defined.

(** The end-to-end scenario of the specification, in the EIP1559 stage:
    1000 transactions per epoch use 21 million gas, 2100 million Gwei of
    basefee are burned and the 42 million Gwei of tips go to the miners. *)
Example scenario_eip1559 :
  exists d : dict Qc,
    run (policy_eip1559_transaction_pricing (scenario_params 225000 21000) 1
           [] (scenario_state (VStage EIP1559)))
      = (Ok d, fee_calls (qc 1) (nmul (qc 2) (qc 1))) /\
    d !! "basefee" = Some (VNum (qc 100)) /\
    d !! "total_basefee" = Some (VNum (qc 2100000000)) /\
    d !! "total_tips_to_miners" = Some (VNum (qc 42000000)) /\
    d !! "total_tips_to_validators" = Some (VNum (qc 0)).
Proof.
  unshelve epose proof
    (fee_policy_active_run (H := Qc_Number) (H0 := ethereum_constants)
       (scenario_params 225000 21000) (scenario_state (VStage EIP1559)) 1 []
       (qc 1) (qc 15000000) (qc 2) (qc 8) (qc 21000)
       (fun _ _ => qc 100) (fun _ _ => qc 2) (fun _ _ => qc 225000)
       EIP1559 (qc 1) (qc 2) (VNum (qc 1))
       _ _ _ _ _ _ _ _ _ _ _ _ _ _ []) as Hrun.
  1-14: by_evaluation.
  match type of Hrun with
  | context [nleb ?a ?b] =>
      replace (nleb a b) with true in Hrun by by_evaluation
  end.
  eexists. split; [exact Hrun|].
  repeat split; simplify_map_eq; try reflexivity;
    apply (f_equal (fun x => Some (VNum x))), Qc_is_canon; by_evaluation.
Qed.

(** * Further properties *)

(** Unfold a function down to its dictionary accesses and primitive
    operations. *)
Ltac py_unfold :=
  unfold policy_network_issuance, policy_eip1559_transaction_pricing,
    update_eth_price, update_eth_supply, py_add, py_sub, py_mul, arith,
    py_truediv, py_le, py_assert, Stage_call, call_process, getitem, bind,
    ret, raise.

(** Case analysis along the execution: destruct what the outermost [match]
    of the computation [t] waits for, until [t] is an outcome and a log. *)
Ltac head_case t :=
  lazymatch t with
  | (_, _) => fail
  | match ?x with _ => _ end => head_case x
  | (match ?x with _ => _ end) _ => head_case x
  | _ => destruct t
  end.

Ltac py_cases :=
  repeat (match goal with
          | |- context [fst ?t] => head_case t
          | |- context [snd ?t] => head_case t
          | |- ?t = (_, _) -> _ => head_case t
          end; cbv beta iota).

Section ReadsFacts.

Context {F : Type} `{Number F} `{Constants F}.

Lemma first_missing_cons_present (d : dict F) k v reads :
  d !! k = Some v -> first_missing ((d, k) :: reads) = first_missing reads.
Proof.
  intros Hk. unfold first_missing. cbn [find]. unfold is_missing at 1.
  cbn [fst snd]. now rewrite Hk.
Qed.

Lemma first_missing_cons_missing (d : dict F) k reads :
  d !! k = None -> first_missing ((d, k) :: reads) = Some k.
Proof.
  intros Hk. unfold first_missing. cbn [find]. unfold is_missing at 1.
  cbn [fst snd]. now rewrite Hk.
Qed.

End ReadsFacts.

(** Walk down the accesses of a function while [first_missing] walks down
    its list of reads: a present key is a step of the function, the missing
    one is its [KeyError]. *)
Ltac walk_to_missing :=
  repeat match goal with
  | |- first_missing ((?d, ?key) :: _) = _ -> _ =>
      let Hk := fresh "Hk" in
      destruct (d !! key) as [?v|] eqn:Hk;
      [ rewrite (first_missing_cons_present _ _ _ _ Hk);
        py_step ltac:(apply getitem_ok; eassumption)
      | rewrite (first_missing_cons_missing _ _ _ Hk);
        intros [= <-]; unfold bind, getitem; rewrite Hk; reflexivity ]
  end;
  unfold first_missing; cbn; discriminate.

Ltac all_present Hn :=
  repeat match type of Hn with
  | first_missing ((?d, ?key) :: _) = None =>
      let Hk := fresh "Hk" in
      destruct (d !! key) as [?v|] eqn:Hk;
      [ rewrite (first_missing_cons_present _ _ _ _ Hk) in Hn
      | rewrite (first_missing_cons_missing _ _ _ Hk) in Hn; discriminate ]
  end.

Section ErrorsAndResults.

Context {F : Type} `{Number F} `{Constants F}.

(** X1: the issuance policy raises [KeyError k] exactly when [k] is the
    first key, in the order [dt], [daily_pow_issuance], [stage],
    [amount_slashed], [total_basefee], [total_tips_to_validators],
    [total_online_validator_rewards], that its dictionary lacks; all seven
    are read before any arithmetic and before the stage is converted. *)
Theorem policy_network_issuance_key_error (params previous_state : dict F)
    substep state_history log :
  (forall k,
     first_missing (issuance_reads params previous_state) = Some k ->
     policy_network_issuance params substep state_history previous_state log
       = (Raise (KeyError k), log)) /\
  (first_missing (issuance_reads params previous_state) = None ->
   forall k,
     fst (policy_network_issuance params substep state_history
            previous_state log) <> Raise (KeyError k)).
Proof.
  unfold issuance_reads. split.
  - intros k. unfold policy_network_issuance. walk_to_missing.
  - intros Hnone k. py_unfold. all_present Hnone.
    py_cases; cbn [fst]; discriminate.
Qed.

(** X2: in a fee-market stage the fee pricing policy raises [KeyError k]
    exactly when [k] is the first missing key among its eight parameters and
    then [run], [timestep] and [basefee] of the state; the error comes
    before any process is sampled.  The [basefee] entry is required although
    its value is not used. *)
Theorem fee_policy_key_error (params previous_state : dict F)
    substep state_history stage log :
  stage_at previous_state stage ->
  stage_in stage [EIP1559; PROOF_OF_STAKE] = true ->
  (forall k,
     first_missing (fee_reads params previous_state) = Some k ->
     policy_eip1559_transaction_pricing params substep state_history
       previous_state log = (Raise (KeyError k), log)) /\
  (first_missing (fee_reads params previous_state) = None ->
   forall k,
     fst (policy_eip1559_transaction_pricing params substep state_history
            previous_state log) <> Raise (KeyError k)).
Proof.
  intros Hstage Hactive.
  destruct (stage_at_inv _ _ Hstage) as (sv & Hsv & Hs).
  unfold fee_reads. split.
  - intros k. unfold policy_eip1559_transaction_pricing.
    py_step ltac:(apply getitem_ok; eassumption).
    py_step ltac:(apply Stage_call_ok; eassumption).
    rewrite Hactive. cbn [negb]. walk_to_missing.
  - intros Hnone k. py_unfold. rewrite Hsv, Hs, Hactive. cbn [negb].
    all_present Hnone.
    py_cases; cbn [fst]; discriminate.
Qed.

(** X3: the price updater raises [KeyError k] exactly when [k] is the first
    missing key among [dt], [eth_price_process], [run] and [timestep], and
    the supply updater exactly when it is the first missing one of
    [network_issuance] in the policy input and [eth_supply] in the state:
    a policy input without [network_issuance] is reported even when the
    state has no [eth_supply]. *)
Theorem updaters_key_error (params previous_state policy_input : dict F)
    substep state_history log :
  (forall k,
     first_missing (price_reads params previous_state) = Some k ->
     update_eth_price params substep state_history previous_state
       policy_input log = (Raise (KeyError k), log)) /\
  (first_missing (price_reads params previous_state) = None ->
   forall k,
     fst (update_eth_price params substep state_history previous_state
            policy_input log) <> Raise (KeyError k)) /\
  (forall k,
     first_missing (supply_reads previous_state policy_input) = Some k ->
     update_eth_supply params substep state_history previous_state
       policy_input log = (Raise (KeyError k), log)) /\
  (first_missing (supply_reads previous_state policy_input) = None ->
   forall k,
     fst (update_eth_supply params substep state_history previous_state
            policy_input log) <> Raise (KeyError k)).
Proof.
  unfold price_reads, supply_reads. split; [|split; [|split]].
  - intros k. unfold update_eth_price. walk_to_missing.
  - intros Hnone k. py_unfold. all_present Hnone.
    py_cases; cbn [fst]; discriminate.
  - intros k. unfold update_eth_supply. walk_to_missing.
  - intros Hnone k. py_unfold. all_present Hnone.
    py_cases; cbn [fst]; discriminate.
Qed.

(** X4: the fee pricing policy validates the stage before it touches the
    parameters: whatever the parameters, a state without [stage] gives
    [KeyError stage] and a [stage] value that [Stage] does not accept gives
    [ValueError], and no process is sampled. *)
Theorem fee_policy_stage_errors (params previous_state : dict F)
    substep state_history log :
  (previous_state !! "stage" = None ->
   policy_eip1559_transaction_pricing params substep state_history
     previous_state log = (Raise (KeyError "stage"), log)) /\
  (forall v,
     previous_state !! "stage" = Some v -> Stage_of_value v = None ->
     policy_eip1559_transaction_pricing params substep state_history
       previous_state log = (Raise ValueError, log)).
Proof.
  split.
  - intros Hnone. py_unfold. now rewrite Hnone.
  - intros v Hv Hs. py_unfold. now rewrite Hv, Hs.
Qed.

(** X5: the issuance policy and the supply updater never sample a process:
    whatever their inputs and whether they return or raise, the log of calls
    is the one they were given. *)
Theorem issuance_and_supply_never_sample
    (params previous_state policy_input : dict F) substep state_history log :
  snd (policy_network_issuance params substep state_history previous_state
         log) = log /\
  snd (update_eth_supply params substep state_history previous_state
         policy_input log) = log.
Proof.
  split; py_unfold; py_cases; reflexivity.
Qed.

(** X6: whatever its inputs and its outcome, the fee pricing policy makes
    at most three calls, in the order basefee process, tip process,
    transactions process and all at the same [(run, time)]: the calls it
    adds to the log are the first [n] of [fee_calls run time]. *)
Theorem fee_policy_calls (params previous_state : dict F)
    substep state_history log :
  exists (run_id t : F) (n : nat),
    snd (policy_eip1559_transaction_pricing params substep state_history
           previous_state log) = log ++ take n (fee_calls run_id t).
Proof.
  py_unfold. unfold fee_calls.
  py_cases; cbn [snd];
    first
      [ exists (of_int 0), (of_int 0), 0%nat; cbn [take];
        now rewrite app_nil_r
      | eexists _, _, 1%nat; cbn [take]; reflexivity
      | eexists _, _, 2%nat; cbn [take]; rewrite <- !app_assoc; reflexivity
      | eexists _, _, 3%nat; cbn [take]; rewrite <- !app_assoc;
        reflexivity ].
Qed.

(** The shape of what the policies return. *)
Lemma policy_network_issuance_shape (params previous_state : dict F)
    substep state_history log log' (d : dict F) :
  policy_network_issuance params substep state_history previous_state log
    = (Ok d, log') ->
  exists x y : F,
    d = <["network_issuance" := VNum x]> (<["pow_issuance" := VNum y]> ∅).
Proof.
  py_unfold. unfold zero.
  py_cases; intros Hrun; simplify_eq; eexists _, _; reflexivity.
Qed.

Lemma fee_policy_shape (params previous_state : dict F)
    substep state_history log log' (d : dict F) :
  policy_eip1559_transaction_pricing params substep state_history
    previous_state log = (Ok d, log') ->
  exists b tb m v : F,
    d = <["basefee" := VNum b]>
        (<["total_basefee" := VNum tb]>
         (<["total_tips_to_miners" := VNum m]>
          (<["total_tips_to_validators" := VNum v]> ∅))).
Proof.
  py_unfold. unfold zero.
  py_cases; intros Hrun; simplify_eq; eexists _, _, _, _; reflexivity.
Qed.

(** X7: whenever they return, the issuance policy returns exactly the keys
    [network_issuance] and [pow_issuance] and the fee pricing policy exactly
    [basefee], [total_basefee], [total_tips_to_miners] and
    [total_tips_to_validators], each bound to a number; the two results
    share no key, so merging them in either order gives the same mapping. *)
Theorem policy_results_keys (params previous_state : dict F)
    substep state_history log log1 log2 (d1 d2 : dict F) :
  policy_network_issuance params substep state_history previous_state log
    = (Ok d1, log1) ->
  policy_eip1559_transaction_pricing params substep state_history
    previous_state log = (Ok d2, log2) ->
  dom d1 = issuance_keys /\
  dom d2 = fee_keys /\
  (forall k v, d1 !! k = Some v -> exists x, v = VNum x) /\
  (forall k v, d2 !! k = Some v -> exists x, v = VNum x) /\
  d1 ##ₘ d2 /\
  d1 ∪ d2 = d2 ∪ d1.
Proof.
  intros Hrun1 Hrun2.
  destruct (policy_network_issuance_shape _ _ _ _ _ _ _ Hrun1)
    as (x & y & ->).
  destruct (fee_policy_shape _ _ _ _ _ _ _ Hrun2) as (b & tb & m & v & ->).
  split; [reflexivity|]. split; [reflexivity|].
  split; [|split; [|split]].
  - intros k w. rewrite !lookup_insert_Some, lookup_empty. intros Hk.
    repeat (destruct Hk as [[_ <-]|[_ Hk]]; [eauto|]). discriminate.
  - intros k w. rewrite !lookup_insert_Some, lookup_empty. intros Hk.
    repeat (destruct Hk as [[_ <-]|[_ Hk]]; [eauto|]). discriminate.
  - do 2 (apply map_disjoint_insert_l_2; [reflexivity|]).
    apply map_disjoint_empty_l.
  - apply map_union_comm.
    do 2 (apply map_disjoint_insert_l_2; [reflexivity|]).
    apply map_disjoint_empty_l.
Qed.

End ErrorsAndResults.

Section IssuanceMore.

Context {F : Type} `{Number F} `{Constants F}.

Variables (params previous_state : dict F).
Variables (substep : Z) (state_history : list (list (dict F))).
Variables (dt : F) (stage : Stage).
Variables (amount_slashed total_basefee total_tips_to_validators
           total_online_validator_rewards : F).

Hypothesis gwei_ok : divisor_ok gwei.
Hypothesis params_dt : num_at params "dt" dt.
Hypothesis state_amount_slashed :
  num_at previous_state "amount_slashed" amount_slashed.
Hypothesis state_total_basefee :
  num_at previous_state "total_basefee" total_basefee.
Hypothesis state_total_tips_to_validators :
  num_at previous_state "total_tips_to_validators" total_tips_to_validators.
Hypothesis state_total_online_validator_rewards :
  num_at previous_state "total_online_validator_rewards"
    total_online_validator_rewards.

#[local] Abbreviation consensus_issuance :=
  (ndiv (nsub (nsub (nsub total_online_validator_rewards
                          total_tips_to_validators)
                    amount_slashed)
              total_basefee)
        gwei).

(** X8: outside BEACON_CHAIN and EIP1559 the network issuance is the net
    consensus issuance alone and [pow_issuance] is [0]; the
    [daily_pow_issuance] parameter must be present but may hold anything,
    and [epochs_per_day] is not divided by. *)
Theorem policy_network_issuance_consensus_only `{!NumberLaws F}
    (daily_pow_issuance : value F) log :
  params !! "daily_pow_issuance" = Some daily_pow_issuance ->
  stage_at previous_state stage ->
  stage_in stage [BEACON_CHAIN; EIP1559] = false ->
  policy_network_issuance params substep state_history previous_state log =
  (Ok (<["network_issuance" := VNum consensus_issuance]>
       (<["pow_issuance" := VNum (of_int 0)]> ∅)), log).
Proof.
  intros Hdpi Hstage Hin.
  destruct (stage_at_inv _ _ Hstage) as (sv & Hsv & Hs).
  unfold policy_network_issuance, py_sub, py_add, py_mul.
  py_step ltac:(apply getitem_num; eassumption).
  do 2 py_step ltac:(apply getitem_ok; eassumption).
  do 4 py_step ltac:(apply getitem_num; eassumption).
  do 3 py_step ltac:(apply arith_ok).
  py_step ltac:(apply py_truediv_ok; assumption).
  py_step ltac:(apply Stage_call_ok; eassumption).
  rewrite Hin.
  py_step ltac:(reflexivity).
  do 2 py_step ltac:(apply arith_ok).
  now rewrite nmul_0_l, nadd_0_r.
Qed.

(** X9: a [stage] that [Stage] does not accept makes the issuance policy
    raise [ValueError], once the seven keys are read and the consensus
    issuance is computed. *)
Theorem policy_network_issuance_invalid_stage
    (daily_pow_issuance stage_v : value F) log :
  params !! "daily_pow_issuance" = Some daily_pow_issuance ->
  previous_state !! "stage" = Some stage_v ->
  Stage_of_value stage_v = None ->
  policy_network_issuance params substep state_history previous_state log =
  (Raise ValueError, log).
Proof.
  intros Hdpi Hsv Hs.
  unfold policy_network_issuance, py_sub, py_add, py_mul.
  py_step ltac:(apply getitem_num; eassumption).
  do 2 py_step ltac:(apply getitem_ok; eassumption).
  do 4 py_step ltac:(apply getitem_num; eassumption).
  do 3 py_step ltac:(apply arith_ok).
  py_step ltac:(apply py_truediv_ok; assumption).
  unfold bind, Stage_call. now rewrite Hs.
Qed.

(** X10: the issuance policy composed with the supply updater: the result
    of the policy, given as policy input, moves the supply by the consensus
    issuance plus [pow_issuance * dt]. *)
Theorem issuance_then_supply (daily_pow_issuance eth_supply : F)
    substep' state_history' log :
  divisor_ok epochs_per_day ->
  num_at params "daily_pow_issuance" daily_pow_issuance ->
  stage_at previous_state stage ->
  num_at previous_state "eth_supply" eth_supply ->
  let pow_issuance :=
    if stage_in stage [BEACON_CHAIN; EIP1559]
    then ndiv daily_pow_issuance epochs_per_day else of_int 0 in
  (policy_input <-
     policy_network_issuance params substep state_history previous_state ;;
   update_eth_supply params substep' state_history' previous_state
     policy_input) log =
  (Ok ("eth_supply",
       VNum (nadd eth_supply
               (nadd consensus_issuance (nmul pow_issuance dt)))), log).
Proof.
  intros Hepd Hdpi Hstage Hsupply pow_issuance.
  py_step ltac:(eapply policy_network_issuance_run; eassumption).
  now apply update_eth_supply_run.
Qed.

End IssuanceMore.

Section FeePricingMore.

Context {F : Type} `{Number F} `{Constants F}.

(** X11: the value of [BASE_FEE_MAX_CHANGE_DENOMINATOR] has no effect on
    the fee pricing policy: two parameter dictionaries that both have the
    key and agree on every other key give the same outcome and the same
    calls. *)
Theorem fee_policy_ignores_change_denominator
    (params params' previous_state : dict F) substep state_history log :
  is_Some (params !! "BASE_FEE_MAX_CHANGE_DENOMINATOR") ->
  is_Some (params' !! "BASE_FEE_MAX_CHANGE_DENOMINATOR") ->
  (forall k, k <> "BASE_FEE_MAX_CHANGE_DENOMINATOR" ->
             params' !! k = params !! k) ->
  policy_eip1559_transaction_pricing params' substep state_history
    previous_state log =
  policy_eip1559_transaction_pricing params substep state_history
    previous_state log.
Proof.
  intros [v Hv] [v' Hv'] Hsame.
  unfold policy_eip1559_transaction_pricing, bind, getitem.
  rewrite Hv'. rewrite !Hsame by discriminate. rewrite Hv. reflexivity.
Qed.

Variables (params previous_state : dict F).
Variables (substep : Z) (state_history : list (list (dict F))).
Variables (dt gas_target ELASTICITY_MULTIPLIER BASE_FEE_MAX_CHANGE_DENOMINATOR
           transaction_average_gas : F).
Variables (eip1559_basefee_process eip1559_tip_process
           daily_transactions_process : F -> F -> F).
Variables (stage : Stage) (run_id timestep : F) (previous_basefee : value F).

Hypothesis epochs_per_day_ok : divisor_ok epochs_per_day.
Hypothesis params_dt : num_at params "dt" dt.
Hypothesis params_gas_target : num_at params "gas_target" gas_target.
Hypothesis params_ELASTICITY_MULTIPLIER :
  num_at params "ELASTICITY_MULTIPLIER" ELASTICITY_MULTIPLIER.
Hypothesis params_BASE_FEE_MAX_CHANGE_DENOMINATOR :
  num_at params "BASE_FEE_MAX_CHANGE_DENOMINATOR"
    BASE_FEE_MAX_CHANGE_DENOMINATOR.
Hypothesis params_eip1559_basefee_process :
  proc_at params "eip1559_basefee_process" eip1559_basefee_process.
Hypothesis params_eip1559_tip_process :
  proc_at params "eip1559_tip_process" eip1559_tip_process.
Hypothesis params_daily_transactions_process :
  proc_at params "daily_transactions_process" daily_transactions_process.
Hypothesis params_transaction_average_gas :
  num_at params "transaction_average_gas" transaction_average_gas.
Hypothesis state_stage : stage_at previous_state stage.
Hypothesis state_run : num_at previous_state "run" run_id.
Hypothesis state_timestep : num_at previous_state "timestep" timestep.
Hypothesis state_basefee : previous_state !! "basefee" = Some previous_basefee.
Hypothesis stage_active : stage_in stage [EIP1559; PROOF_OF_STAKE] = true.

#[local] Abbreviation t := (nmul timestep dt).
#[local] Abbreviation gas_used :=
  (gas_used_of (daily_transactions_process run_id t) transaction_average_gas).
#[local] Abbreviation gas_limit :=
  (gas_limit_of gas_target ELASTICITY_MULTIPLIER).

(** X12: the tips are conserved by the split: in either fee-market stage,
    on an input that passes the gas check, the tips returned for the miners
    and for the validators add up to
    [gas_used * avg_tip_amount * dt]. *)
Theorem fee_policy_tips_conserved `{!NumberLaws F} log :
  nleb gas_used gas_limit = true ->
  exists (d : dict F) (to_miners to_validators : F),
    policy_eip1559_transaction_pricing params substep state_history
      previous_state log = (Ok d, log ++ fee_calls run_id t) /\
    d !! "total_tips_to_miners" = Some (VNum to_miners) /\
    d !! "total_tips_to_validators" = Some (VNum to_validators) /\
    nadd to_miners to_validators =
      nmul (nmul gas_used (eip1559_tip_process run_id t)) dt.
Proof.
  intros Hgas. eexists _, _, _. split; [|split; [|split]].
  - rewrite (fee_policy_active_run params previous_state substep
               state_history dt gas_target ELASTICITY_MULTIPLIER
               BASE_FEE_MAX_CHANGE_DENOMINATOR transaction_average_gas
               eip1559_basefee_process eip1559_tip_process
               daily_transactions_process stage run_id timestep
               previous_basefee) by assumption.
    rewrite Hgas. reflexivity.
  - reflexivity.
  - reflexivity.
  - destruct (stage_in stage [PROOF_OF_STAKE]).
    + now rewrite nmul_0_l, nadd_0_l.
    + now rewrite nmul_0_l, nadd_0_r.
Qed.

(** X13: on a well-formed input in a fee-market stage the three processes
    are sampled, each once and at [(run, timestep * dt)], before the gas
    check: the calls are the same whether the policy then returns or raises.
    The price updater samples its process at the same point. *)
Theorem samples_at_run_and_time (eth_price_process : F -> F -> F)
    (policy_input : dict F) substep' state_history' log :
  proc_at params "eth_price_process" eth_price_process ->
  snd (policy_eip1559_transaction_pricing params substep state_history
         previous_state log) = log ++ fee_calls run_id t /\
  snd (update_eth_price params substep' state_history' previous_state
         policy_input log) = log ++ [Call "eth_price_process" run_id t].
Proof.
  intros Hprice. split.
  - rewrite (fee_policy_active_run params previous_state substep
               state_history dt gas_target ELASTICITY_MULTIPLIER
               BASE_FEE_MAX_CHANGE_DENOMINATOR transaction_average_gas
               eip1559_basefee_process eip1559_tip_process
               daily_transactions_process stage run_id timestep
               previous_basefee) by assumption.
    reflexivity.
  - unfold update_eth_price, py_mul.
    py_step ltac:(apply getitem_num; eassumption).
    py_step ltac:(apply getitem_proc; eassumption).
    do 2 py_step ltac:(apply getitem_num; eassumption).
    py_step ltac:(apply arith_ok).
    py_step ltac:(apply call_process_ok).
    reflexivity.
Qed.

End FeePricingMore.

(** ** The further properties at work *)

(** Without [daily_pow_issuance] the issuance policy stops at that key. *)
Lemma policy_network_issuance_key_error_scenario :
  run (policy_network_issuance
         (delete "daily_pow_issuance" (scenario_params 225000 21000)) 1 []
         (scenario_state (VStage EIP1559)))
    = (Raise (KeyError "daily_pow_issuance"), []).
Proof.
  refine (proj1 (policy_network_issuance_key_error (H := Qc_Number)
                   (H0 := ethereum_constants)
                   (delete "daily_pow_issuance" (scenario_params 225000 21000))
                   (scenario_state (VStage EIP1559)) 1 [] [])
                "daily_pow_issuance" _).
  by_evaluation.
Defined.

(** A state without [basefee] in the EIP1559 stage. *)
Lemma fee_policy_key_error_scenario :
  run (policy_eip1559_transaction_pricing (scenario_params 225000 21000) 1 []
         (delete "basefee" (scenario_state (VStage EIP1559))))
    = (Raise (KeyError "basefee"), []).
Proof.
  refine (proj1 (fee_policy_key_error (H := Qc_Number)
                   (H0 := ethereum_constants)
                   (scenario_params 225000 21000)
                   (delete "basefee" (scenario_state (VStage EIP1559)))
                   1 [] EIP1559 [] _ _)
                "basefee" _);
    by_evaluation.
Defined.

(** The supply updater on an empty policy input and an empty state. *)
Lemma updaters_key_error_scenario :
  run (update_eth_supply (scenario_params 225000 21000) 1 [] ∅ ∅)
    = (Raise (KeyError "network_issuance"), []).
Proof.
  refine (proj1 (proj2 (proj2 (updaters_key_error (H := Qc_Number)
                   (scenario_params 225000 21000) ∅ ∅ 1 [] [])))
                "network_issuance" _).
  by_evaluation.
Defined.

(** No member of [Stage] has the value 7. *)
Lemma fee_policy_stage_errors_scenario :
  run (policy_eip1559_transaction_pricing ∅ 1 []
         (scenario_state (VNum (qc 7)))) = (Raise ValueError, []).
Proof.
  refine (proj2 (fee_policy_stage_errors (H := Qc_Number)
                   (H0 := ethereum_constants) ∅
                   (scenario_state (VNum (qc 7))) 1 [] [])
                (VNum (qc 7)) _ _);
    by_evaluation.
Defined.

(** The results of the two policies in the BEACON_CHAIN stage. *)
Lemma policy_results_keys_scenario :
  exists d1 d2 : dict Qc,
    run (policy_network_issuance (scenario_params 225000 21000) 1 []
           (scenario_state (VStage BEACON_CHAIN))) = (Ok d1, []) /\
    run (policy_eip1559_transaction_pricing (scenario_params 225000 21000) 1
           [] (scenario_state (VStage BEACON_CHAIN))) = (Ok d2, []) /\
    dom d1 = issuance_keys /\ dom d2 = fee_keys /\ d1 ∪ d2 = d2 ∪ d1.
Proof.
  unshelve epose proof
    (policy_network_issuance_run (H := Qc_Number) (H0 := ethereum_constants)
       (scenario_params 225000 21000) (scenario_state (VStage BEACON_CHAIN))
       1 [] (qc 1) (qc 13500) BEACON_CHAIN
       (qc 1000000000) (qc 2000000000) (qc 3000000000) (qc 10000000000)
       _ _ _ _ _ _ _ _ _ []) as Hrun1.
  1-9: by_evaluation.
  unshelve epose proof
    (fee_policy_inactive (H := Qc_Number) (H0 := ethereum_constants)
       (scenario_params 225000 21000) (scenario_state (VStage BEACON_CHAIN))
       1 [] BEACON_CHAIN [] _ _) as Hrun2.
  1-2: by_evaluation.
  destruct (policy_results_keys _ _ _ _ _ _ _ _ _ Hrun1 Hrun2)
    as (Hdom1 & Hdom2 & _ & _ & _ & Hcomm).
  eexists _, _. split; [exact Hrun1|]. split; [exact Hrun2|].
  split; [exact Hdom1|]. split; [exact Hdom2|]. exact Hcomm.
Defined.

(** The proof-of-stake stage with a [daily_pow_issuance] that is not even a
    number: 4 ETH of consensus issuance and nothing else. *)
Lemma policy_network_issuance_consensus_only_scenario :
  exists d : dict Qc,
    run (policy_network_issuance
           (<["daily_pow_issuance" := VStage PROOF_OF_WORK]>
              (scenario_params 225000 21000)) 1 []
           (scenario_state (VStage PROOF_OF_STAKE))) = (Ok d, []) /\
    d !! "network_issuance" = Some (VNum (qc 4)) /\
    d !! "pow_issuance" = Some (VNum (qc 0)).
Proof.
  unshelve epose proof
    (policy_network_issuance_consensus_only (H := Qc_Number)
       (H0 := ethereum_constants)
       (<["daily_pow_issuance" := VStage PROOF_OF_WORK]>
          (scenario_params 225000 21000))
       (scenario_state (VStage PROOF_OF_STAKE)) 1 [] (qc 1) PROOF_OF_STAKE
       (qc 1000000000) (qc 2000000000) (qc 3000000000) (qc 10000000000)
       _ _ _ _ _ _ (NumberLaws0 := Qc_NumberLaws)
       (VStage PROOF_OF_WORK) [] _ _ _) as Hrun.
  1-9: by_evaluation.
  eexists. split; [exact Hrun|]. split; [|reflexivity].
  rewrite lookup_insert_eq. apply (f_equal (fun x => Some (VNum x))).
  apply Qc_is_canon. by_evaluation.
Defined.

Lemma policy_network_issuance_invalid_stage_scenario :
  run (policy_network_issuance (scenario_params 225000 21000) 1 []
         (scenario_state (VNum (qc 9)))) = (Raise ValueError, []).
Proof.
  refine (policy_network_issuance_invalid_stage (H := Qc_Number)
            (H0 := ethereum_constants)
            (scenario_params 225000 21000) (scenario_state (VNum (qc 9)))
            1 [] (qc 1)
            (qc 1000000000) (qc 2000000000) (qc 3000000000) (qc 10000000000)
            _ _ _ _ _ _ (VNum (qc 13500)) (VNum (qc 9)) [] _ _ _);
    by_evaluation.
Defined.

(** From 116250000 ETH, one timestep of the EIP1559 scenario adds 64 ETH. *)
Lemma issuance_then_supply_scenario :
  run (policy_input <-
         policy_network_issuance (scenario_params 225000 21000) 1 []
           (scenario_state (VStage EIP1559)) ;;
       update_eth_supply (scenario_params 225000 21000) 2 []
         (scenario_state (VStage EIP1559)) policy_input)
    = (Ok ("eth_supply", VNum (qc 116250064)), []).
Proof.
  unshelve epose proof
    (issuance_then_supply (H := Qc_Number) (H0 := ethereum_constants)
       (scenario_params 225000 21000) (scenario_state (VStage EIP1559))
       1 [] (qc 1) EIP1559
       (qc 1000000000) (qc 2000000000) (qc 3000000000) (qc 10000000000)
       _ _ _ _ _ _ (qc 13500) (qc 116250000) 2 [] [] _ _ _ _) as Hrun.
  1-10: by_evaluation.
  unfold run. rewrite Hrun. apply (f_equal (fun x => (Ok ("eth_supply", VNum x), []))).
  apply Qc_is_canon. by_evaluation.
Defined.

Lemma fee_policy_ignores_change_denominator_scenario :
  policy_eip1559_transaction_pricing
    (<["BASE_FEE_MAX_CHANGE_DENOMINATOR" := VNum (qc 1000)]>
       (scenario_params 225000 21000)) 1 []
    (scenario_state (VStage EIP1559)) [] =
  policy_eip1559_transaction_pricing (scenario_params 225000 21000) 1 []
    (scenario_state (VStage EIP1559)) [].
Proof.
  apply fee_policy_ignores_change_denominator.
  - exists (VNum (qc 8)). by_evaluation.
  - exists (VNum (qc 1000)). by_evaluation.
  - intros k Hk. apply lookup_insert_ne. congruence.
Defined.

(** The 42 million Gwei of tips of the scenario, in the EIP1559 stage. *)
Lemma fee_policy_tips_conserved_scenario :
  exists (d : dict Qc) (to_miners to_validators : Qc),
    run (policy_eip1559_transaction_pricing (scenario_params 225000 21000) 1
           [] (scenario_state (VStage EIP1559)))
      = (Ok d, fee_calls (qc 1) (nmul (qc 2) (qc 1))) /\
    d !! "total_tips_to_miners" = Some (VNum to_miners) /\
    d !! "total_tips_to_validators" = Some (VNum to_validators) /\
    nadd to_miners to_validators = qc 42000000.
Proof.
  unshelve epose proof
    (fee_policy_tips_conserved (H := Qc_Number) (H0 := ethereum_constants)
       (scenario_params 225000 21000) (scenario_state (VStage EIP1559)) 1 []
       (qc 1) (qc 15000000) (qc 2) (qc 8) (qc 21000)
       (fun _ _ => qc 100) (fun _ _ => qc 2) (fun _ _ => qc 225000)
       EIP1559 (qc 1) (qc 2) (VNum (qc 1))
       _ _ _ _ _ _ _ _ _ _ _ _ _ _ (NumberLaws0 := Qc_NumberLaws) [] _)
    as (d & m & v & Hrun & Hm & Hv & Hsum).
  1-15: by_evaluation.
  exists d, m, v. split; [exact Hrun|]. split; [exact Hm|].
  split; [exact Hv|]. rewrite Hsum. apply Qc_is_canon. by_evaluation.
Defined.

(** 50000 transactions of 21000 gas per epoch are above the limit: the
    policy raises, after the three samples. *)
Lemma samples_at_run_and_time_scenario :
  run (policy_eip1559_transaction_pricing
         (scenario_params (225 * 50000) 21000) 1 []
         (scenario_state (VStage EIP1559)))
    = (Raise (AssertionError "invalid block: too much gas used"),
       fee_calls (qc 1) (nmul (qc 2) (qc 1))) /\
  snd (run (update_eth_price (scenario_params (225 * 50000) 21000) 1 []
              (scenario_state (VStage EIP1559)) ∅))
    = [Call "eth_price_process" (qc 1) (nmul (qc 2) (qc 1))].
Proof.
  unshelve epose proof
    (samples_at_run_and_time (H := Qc_Number) (H0 := ethereum_constants)
       (scenario_params (225 * 50000) 21000)
       (scenario_state (VStage EIP1559)) 1 []
       (qc 1) (qc 15000000) (qc 2) (qc 8) (qc 21000)
       (fun _ _ => qc 100) (fun _ _ => qc 2) (fun _ _ => qc (225 * 50000))
       EIP1559 (qc 1) (qc 2) (VNum (qc 1))
       _ _ _ _ _ _ _ _ _ _ _ _ _ _ (fun _ _ => qc 3000) ∅ 1 [] [] _)
    as [Hfee Hprice].
  1-15: by_evaluation.
  split; [|exact Hprice].
  unfold run.
  rewrite (surjective_pairing (policy_eip1559_transaction_pricing _ _ _ _ _)).
  apply pair_equal_spec. split; [by_evaluation | exact Hfee].
Defined.
